(** * Todo client: transport wrappers, root component, input and item components

    A shallow embedding of [api.js], [App.jsx], [TodoForm.jsx] and
    [TodoItem.jsx].  Asynchronous functions are computations in a
    state-and-rejection monad: an [await] is a bind, a [throw] is a
    rejection, and state written before a rejection stays written.  The
    network is an oracle that answers each request from the history of
    the requests sent before it. *)

From Stdlib Require Import ZArith NArith String Ascii DecimalString.
From stdpp Require Import base decidable option list.

Local Open Scope N_scope.

(** ** JavaScript strings *)

(** A JavaScript string is a sequence of UTF-16 code units. *)
Definition code_unit := N.
Definition jsstring := list N.

(** An ASCII literal as a JavaScript string. *)
Definition js (s : string) : jsstring :=
  List.map N_of_ascii (list_ascii_of_string s).

(** ECMAScript WhiteSpace and LineTerminator code points, the ones
    [String.prototype.trim] strips.  All of them lie in the basic plane,
    so the test is per code unit. *)
Definition isWhiteSpace (c : N) : bool :=
  (c =? 0x09) || (c =? 0x0A) || (c =? 0x0B) || (c =? 0x0C) || (c =? 0x0D)
  || (c =? 0x20) || (c =? 0xA0) || (c =? 0x1680)
  || ((0x2000 <=? c) && (c <=? 0x200A))
  || (c =? 0x2028) || (c =? 0x2029) || (c =? 0x202F) || (c =? 0x205F)
  || (c =? 0x3000) || (c =? 0xFEFF).

Fixpoint trimStart (s : jsstring) : jsstring :=
  match s with
  | [] => []
  | c :: r => if isWhiteSpace c then trimStart r else s
  end.

Definition trimEnd (s : jsstring) : jsstring := rev (trimStart (rev s)).

(** [s.trim()] *)
Definition trim (s : jsstring) : jsstring := trimEnd (trimStart s).

(** Truthiness of a string: every string but the empty one. *)
Definition truthy (s : jsstring) : bool :=
  match s with [] => false | _ :: _ => true end.

(** A string that is empty or holds nothing but white space. *)
Definition blank (s : jsstring) : bool := forallb isWhiteSpace s.

(** [String(n)] for an integral number, in the range where JavaScript
    prints all the digits. *)
Definition string_of_Z (n : Z) : jsstring :=
  js (NilZero.string_of_int (Z.to_int n)).

(** ** Rejections and the monad of asynchronous functions *)

(** What a promise is rejected with: an error object, by constructor. *)
Inductive JsError : Type :=
  | Error (message : jsstring)
  | TypeError (message : jsstring)
  | SyntaxError (message : jsstring).

Definition message (e : JsError) : jsstring :=
  match e with Error m | TypeError m | SyntaxError m => m end.

(** A settled promise. *)
Inductive Outcome (A : Type) : Type :=
  | Resolved (a : A)
  | Rejected (e : JsError).
Arguments Resolved {A} a.
Arguments Rejected {A} e.

(** An asynchronous function over a state [S]. *)
Definition M (S A : Type) : Type := S -> Outcome A * S.

Definition ret {S A} (a : A) : M S A := fun s => (Resolved a, s).

Definition throw {S A} (e : JsError) : M S A := fun s => (Rejected e, s).

Definition bind {S A B} (m : M S A) (k : A -> M S B) : M S B :=
  fun s =>
    match m s with
    | (Resolved a, s') => k a s'
    | (Rejected e, s') => (Rejected e, s')
    end.

(** [try { m } catch (err) { h err }] *)
Definition try_catch {S A} (m : M S A) (h : JsError -> M S A) : M S A :=
  fun s =>
    match m s with
    | (Resolved a, s') => (Resolved a, s')
    | (Rejected e, s') => h e s'
    end.

(** [try { m } finally { f }], for an [f] that completes normally. *)
Definition try_finally {S A} (m : M S A) (f : M S unit) : M S A :=
  fun s =>
    let '(r, s') := m s in
    match f s' with
    | (Resolved _, s'') => (r, s'')
    | (Rejected e, s'') => (Rejected e, s'')
    end.

(** Awaiting a promise that has already settled. *)
Definition settle {S A} (o : Outcome A) : M S A := fun s => (o, s).

Definition modify {S} (f : S -> S) : M S unit := fun s => (Resolved tt, f s).

Definition gets {S A} (f : S -> A) : M S A := fun s => (Resolved (f s), s).

(** Run a computation over [S] inside a larger state [T]. *)
Definition zoom {S T A} (get : T -> S) (set : S -> T -> T) (m : M S A)
  : M T A :=
  fun t => let '(r, s') := m (get t) in (r, set s' t).

Declare Scope async_scope.
Delimit Scope async_scope with async.
Notation "'await' x <- m ; k" := (bind m (fun x => k))
  (at level 10, x name, m at level 100, k at level 200) : async_scope.
Notation "m ;; k" := (bind m (fun _ => k))
  (at level 100, k at level 200, right associativity) : async_scope.
Local Open Scope async_scope.

(** ** Data model *)

(** A server-assigned identifier: a number or a string.  [===] never
    equates a number with a string. *)
Inductive Id : Type :=
  | IdNum (n : Z)
  | IdStr (s : jsstring).

#[global] Instance Id_eq_dec : EqDecision Id.
Proof. solve_decision. Defined.

(** [String(id)], as a template literal renders it. *)
Definition string_of_Id (i : Id) : jsstring :=
  match i with
  | IdNum n => string_of_Z n
  | IdStr s => s
  end.

(** A record [{id, title, completed}]. *)
Record Todo : Type := mkTodo {
  todo_id : Id;
  todo_title : jsstring;
  todo_completed : bool
}.

#[global] Instance Todo_eq_dec : EqDecision Todo.
Proof. solve_decision. Defined.

(** ** The network *)

Inductive Method : Type := GET | POST | PATCH | DELETE.

(** The values handed to [JSON.stringify]: flat objects of strings and
    booleans.  The request keeps the value, not its serialisation. *)
Inductive JValue : Type :=
  | JBool (b : bool)
  | JString (s : jsstring).

Definition Json : Type := list (jsstring * JValue).

Record Request : Type := mkRequest {
  req_url : jsstring;
  req_method : Method;
  req_headers : list (jsstring * jsstring);
  req_body : option Json
}.

(** A response as the wrappers read it: the [ok] flag (status in
    200..299) and the promise [json()] returns, which is rejected when
    the body is not JSON.  [A] is the shape the endpoint's body decodes
    to. *)
Record Response (A : Type) : Type := mkResponse {
  ok : bool;
  json : Outcome A
}.
Arguments mkResponse {A} ok json.
Arguments ok {A} r.
Arguments json {A} r.

(** [fetch] for an endpoint whose body decodes to [A]: the settled
    promise for a request, given the requests sent before it.  The promise
    is rejected when no response arrives at all. *)
Definition Fetch (A : Type) : Type :=
  list Request -> Request -> Outcome (Response A).

(** The server behind [BASE], by what each endpoint's body decodes to:
    the collection, one record (create and update), nothing (delete). *)
Record Net : Type := mkNet {
  fetch_todos : Fetch (list Todo);
  fetch_todo : Fetch Todo;
  fetch_none : Fetch unit
}.

(** Sending a request records it and settles with the oracle's answer. *)
Definition fetch {A} (f : Fetch A) (req : Request)
  : M (list Request) (Response A) :=
  fun sent => (f sent req, sent ++ [req]).

(** ** api.js: the transport wrappers *)

Definition BASE : jsstring := js "http://localhost:5174".

Definition content_type_json : list (jsstring * jsstring) :=
  [(js "Content-Type", js "application/json")].

(** The request each wrapper hands to [fetch]. *)
Definition listRequest : Request :=
  mkRequest (BASE ++ js "/todos") GET [] None.

Definition createRequest (title : jsstring) : Request :=
  mkRequest (BASE ++ js "/todos") POST content_type_json
    (Some [(js "title", JString title); (js "completed", JBool false)]).

Definition updateRequest (id : Id) (patch : Json) : Request :=
  mkRequest (BASE ++ js "/todos/" ++ string_of_Id id) PATCH
    content_type_json (Some patch).

Definition deleteRequest (id : Id) : Request :=
  mkRequest (BASE ++ js "/todos/" ++ string_of_Id id) DELETE [] None.

Section Transport.

Variable net : Net.

Definition listTodos : M (list Request) (list Todo) :=
  await res <- fetch (fetch_todos net) listRequest;
  if negb (ok res) then throw (Error (js "Failed to load todos"))
  else settle (json res).

Definition createTodo (title : jsstring) : M (list Request) Todo :=
  await res <- fetch (fetch_todo net) (createRequest title);
  if negb (ok res) then throw (Error (js "Failed to create todo"))
  else settle (json res).

Definition updateTodo (id : Id) (patch : Json) : M (list Request) Todo :=
  await res <- fetch (fetch_todo net) (updateRequest id patch);
  if negb (ok res) then throw (Error (js "Failed to update todo"))
  else settle (json res).

Definition deleteTodo (id : Id) : M (list Request) bool :=
  await res <- fetch (fetch_none net) (deleteRequest id);
  if negb (ok res) then throw (Error (js "Failed to delete todo"))
  else ret true.

End Transport.

(** ** App.jsx: the root component *)

(** The root component's three state cells, and the requests that have
    left the client. *)
Record World : Type := mkWorld {
  todos : list Todo;
  loading : bool;
  error : option jsstring;
  sent : list Request
}.

(** [useState([])], [useState(true)], [useState(null)] *)
Definition initial : World := mkWorld [] true None [].

(** [setTodos(updater)] *)
Definition setTodos (f : list Todo -> list Todo) : M World unit :=
  modify (fun w => mkWorld (f (todos w)) (loading w) (error w) (sent w)).

Definition setLoading (b : bool) : M World unit :=
  modify (fun w => mkWorld (todos w) b (error w) (sent w)).

Definition setError (m : jsstring) : M World unit :=
  modify (fun w => mkWorld (todos w) (loading w) (Some m) (sent w)).

(** A transport call made from the root component. *)
Definition api {A} (m : M (list Request) A) : M World A :=
  zoom sent (fun l w => mkWorld (todos w) (loading w) (error w) l) m.

Section App.

Variable net : Net.

(** The effect run once on mount. *)
Definition load : M World unit :=
  try_finally
    (try_catch
       (setLoading true ;;
        await data <- api (listTodos net);
        setTodos (fun _ => data))
       (fun err => setError (message err)))
    (setLoading false).

Definition handleAdd (title : jsstring) : M World unit :=
  await created <- api (createTodo net title);
  setTodos (fun prev => prev ++ [created]).

Definition handleToggle (id : Id) (completed : bool) : M World unit :=
  await updated <- api (updateTodo net id [(js "completed", JBool completed)]);
  setTodos (fun prev =>
    (fun t => if bool_decide (todo_id t = id) then updated else t) <$> prev).

Definition handleEdit (id : Id) (title : jsstring) : M World unit :=
  await updated <- api (updateTodo net id [(js "title", JString title)]);
  setTodos (fun prev =>
    (fun t => if bool_decide (todo_id t = id) then updated else t) <$> prev).

Definition handleDelete (id : Id) : M World unit :=
  api (deleteTodo net id) ;;
  setTodos (fun prev => filter (fun t => todo_id t ≠ id) prev).

End App.

(** ** TodoForm.jsx: the input component *)

(** A callback of the parent, run from a child that holds local state
    [L] next to the parent's state [W]. *)
Definition parent {L W A} (m : M W A) : M (L * W) A :=
  zoom snd (fun w s => (fst s, w)) m.

(** Local state: the text of the field. *)
Definition setTitle {W} (v : jsstring) : M (jsstring * W) unit :=
  modify (fun s => (v, snd s)).

(** The input's change handler, [v] being [e.target.value]. *)
Definition title_onChange {W} (v : jsstring) : M (jsstring * W) unit :=
  setTitle v.

(** The form's submit handler ([e.preventDefault()] has no effect on the
    state modelled here). *)
Definition submit {W} (onAdd : jsstring -> M W unit) : M (jsstring * W) unit :=
  await title <- gets fst;
  if negb (truthy (trim title)) then ret tt
  else
    parent (onAdd (trim title)) ;;
    setTitle (js "").

(** ** TodoItem.jsx: the item component *)

Record ItemState : Type := mkItemState {
  isEditing : bool;
  draft : jsstring
}.

(** [useState(false)], [useState(todo.title)] *)
Definition item_initial (todo : Todo) : ItemState :=
  mkItemState false (todo_title todo).

Definition setIsEditing {W} (b : bool) : M (ItemState * W) unit :=
  modify (fun s => (mkItemState b (draft (fst s)), snd s)).

Definition setDraft {W} (v : jsstring) : M (ItemState * W) unit :=
  modify (fun s => (mkItemState (isEditing (fst s)) v, snd s)).

Section TodoItem.

Context {W : Type}.
Variable todo : Todo.
Variable onToggle : Id -> bool -> M W unit.
Variable onEdit : Id -> jsstring -> M W unit.
Variable onDelete : Id -> M W unit.

Definition save : M (ItemState * W) unit :=
  await draft <- gets (fun s => draft (fst s));
  (if truthy (trim draft) && bool_decide (draft ≠ todo_title todo)
   then parent (onEdit (todo_id todo) (trim draft))
   else ret tt) ;;
  setIsEditing false.

(** The Cancel button's handler. *)
Definition cancel_onClick : M (ItemState * W) unit :=
  setIsEditing false ;;
  setDraft (todo_title todo).

(** The checkbox's handler. *)
Definition checkbox_onChange : M (ItemState * W) unit :=
  parent (onToggle (todo_id todo) (negb (todo_completed todo))).

(** The Delete button's handler. *)
Definition delete_onClick : M (ItemState * W) unit :=
  parent (onDelete (todo_id todo)).

(** The Edit button's handler. *)
Definition edit_onClick : M (ItemState * W) unit :=
  setIsEditing true.

(** The draft input's change handler, [v] being [e.target.value]. *)
Definition draft_onChange (v : jsstring) : M (ItemState * W) unit :=
  setDraft v.

End TodoItem.

(** *** What the item component returns

    The element tree by its parts that depend on the props and the
    state; fixed styling and the wiring of the handlers above are left
    out. *)
Inductive ItemBody : Type :=
  | Editing (value : jsstring)
  | Reading (text : jsstring) (line_through : bool).

Record ItemView : Type := mkItemView {
  checked : bool;
  aria_label : jsstring;
  body : ItemBody
}.

Definition TodoItem_render (todo : Todo) (st : ItemState) : ItemView :=
  mkItemView
    (todo_completed todo)
    (js "Toggle " ++ todo_title todo)
    (if isEditing st then Editing (draft st)
     else Reading (todo_title todo) (todo_completed todo)).

(** ** TodoList.jsx: the list component *)


(** The placeholder paragraph, or one item element per record with its
    [key], which React keeps as the string [String(t.id)], and its [todo]
    prop. *)
Inductive ListView : Type :=
  | NoTodos
  | Items (items : list (jsstring * Todo)).

Definition TodoList_render (todos : list Todo) : ListView :=
  if negb (0 <? length todos)%nat then NoTodos
  else Items ((fun t => (string_of_Id (todo_id t), t)) <$> todos).

(** *** What the root component returns *)

(** The loading paragraph, or the form, the rule and the list element
    with its [todos] prop. *)
Inductive AppContent : Type :=
  | LoadingIndicator
  | Ready (todos : list Todo).

(** The text of the error paragraph when there is one, and the
    content.  [error && ...] renders nothing for [null] and for the empty
    string. *)
Record AppView : Type := mkAppView {
  banner : option jsstring;
  content : AppContent
}.

Definition App_render (w : World) : AppView :=
  mkAppView
    (match error w with
     | Some m => if truthy m then Some (js "Error: " ++ m) else None
     | None => None
     end)
    (if loading w then LoadingIndicator else Ready (todos w)).

(** ** Vocabulary of the statements *)

(** The outcome of a wrapper that reads the body, from what [fetch]
    settled with. *)
Definition answer {A} (failure : jsstring) (o : Outcome (Response A))
  : Outcome A :=
  match o with
  | Rejected e => Rejected e
  | Resolved res =>
      if ok res then json res else Rejected (Error failure)
  end.

(** The world once [req] has left the client. *)
Definition sending (req : Request) (w : World) : World :=
  mkWorld (todos w) (loading w) (error w) (sent w ++ [req]).

(** The world with the collection replaced. *)
Definition with_todos (l : list Todo) (w : World) : World :=
  mkWorld l (loading w) (error w) (sent w).

(** The four mutations of the collection the root component offers. *)
Inductive Mutation : Type :=
  | Add (title : jsstring)
  | ToggleComplete (id : Id) (newValue : bool)
  | EditTitle (id : Id) (newTitle : jsstring)
  | Remove (id : Id).

Definition perform (net : Net) (op : Mutation) : M World unit :=
  match op with
  | Add title => handleAdd net title
  | ToggleComplete id newValue => handleToggle net id newValue
  | EditTitle id newTitle => handleEdit net id newTitle
  | Remove id => handleDelete net id
  end.

(** The request a mutation sends. *)
Definition request_of (op : Mutation) : Request :=
  match op with
  | Add title => createRequest title
  | ToggleComplete id newValue =>
      updateRequest id [(js "completed", JBool newValue)]
  | EditTitle id newTitle => updateRequest id [(js "title", JString newTitle)]
  | Remove id => deleteRequest id
  end.

(** The fixed message of the failure a mutation's wrapper throws. *)
Definition failure_of (op : Mutation) : jsstring :=
  match op with
  | Add _ => js "Failed to create todo"
  | ToggleComplete _ _ | EditTitle _ _ => js "Failed to update todo"
  | Remove _ => js "Failed to delete todo"
  end.

(** The [ok] flag of a response, when one arrived. *)
Definition ok_of {A} (o : Outcome (Response A)) : option bool :=
  match o with
  | Resolved res => Some (ok res)
  | Rejected _ => None
  end.

(** The [ok] flag of the response to the request a mutation sends after
    the requests in [history]. *)
Definition status (net : Net) (op : Mutation) (history : list Request)
  : option bool :=
  match op with
  | Add _ | ToggleComplete _ _ | EditTitle _ _ =>
      ok_of (fetch_todo net history (request_of op))
  | Remove _ => ok_of (fetch_none net history (request_of op))
  end.

(** A title fit to store: not empty, no white space at either end. *)
Definition clean (t : jsstring) : bool :=
  match head t, last t with
  | Some c, Some d => negb (isWhiteSpace c) && negb (isWhiteSpace d)
  | _, _ => false
  end.

(** A response with its body forgotten, the decoder's verdict kept. *)
Definition erase {A} (o : Outcome (Response A)) : Outcome (Response unit) :=
  match o with
  | Rejected e => Rejected e
  | Resolved res =>
      Resolved (mkResponse (ok res)
                  (match json res with
                   | Resolved _ => Resolved tt
                   | Rejected e => Rejected e
                   end))
  end.

(** What [fetch] settles with for the request a mutation sends after the
    requests in [history]. *)
Definition reply (net : Net) (op : Mutation) (history : list Request)
  : Outcome (Response unit) :=
  match op with
  | Add _ | ToggleComplete _ _ | EditTitle _ _ =>
      erase (fetch_todo net history (request_of op))
  | Remove _ => erase (fetch_none net history (request_of op))
  end.

(** Whether a mutation's wrapper reads the body of the response. *)
Definition reads_body (op : Mutation) : bool :=
  match op with
  | Remove _ => false
  | _ => true
  end.

(** ** Servers and worlds to run the client against *)

(** A success response whose body decodes to [a]. *)
Definition success {A} (a : A) : Outcome (Response A) :=
  Resolved (mkResponse true (Resolved a)).

(** A server that answers every create and update with the same record,
    and every list and delete with success. *)
Definition net_const (r : Todo) : Net :=
  mkNet (fun _ _ => success []) (fun _ _ => success r) (fun _ _ => success tt).

(** A server that answers every request with a non-success status and a
    JSON error body. *)
Definition net_refusing : Net :=
  mkNet (fun _ _ => Resolved (mkResponse false (Resolved [])))
        (fun _ _ => Resolved (mkResponse false
                                (Rejected (SyntaxError (js "Unexpected token")))))
        (fun _ _ => Resolved (mkResponse false (Resolved tt))).

(** A server that answers every request with a success status and an
    empty body, which is not JSON. *)
Definition net_empty_body : Net :=
  let no_json A : Outcome (Response A) :=
    Resolved (mkResponse true
                (Rejected (SyntaxError (js "Unexpected end of JSON input")))) in
  mkNet (fun _ _ => no_json _) (fun _ _ => no_json _) (fun _ _ => no_json _).

(** No connection: every [fetch] is rejected. *)
Definition net_offline : Net :=
  let failed A : Outcome (Response A) :=
    Rejected (TypeError (js "Failed to fetch")) in
  mkNet (fun _ _ => failed _) (fun _ _ => failed _) (fun _ _ => failed _).

Definition learn : Todo := mkTodo (IdNum 1) (js "Learn") false.
Definition learn_done : Todo := mkTodo (IdNum 1) (js "Learn") true.
Definition milk : Todo := mkTodo (IdNum 2) (js "Buy milk") false.

(** A record the server created under an identifier already in use. *)
Definition milk_dup : Todo := mkTodo (IdNum 1) (js "Buy milk") false.

(** A server that answers the updates in turn with the record done and
    the record as it was, the first update coming after one request. *)
Definition net_toggling : Net :=
  mkNet (fun _ _ => success [learn])
        (fun history _ =>
           success (if Nat.even (length history) then learn else learn_done))
        (fun _ _ => success tt).

(** The world after a load that returned [l]. *)
Definition loaded (l : list Todo) : World := mkWorld l false None [listRequest].

(** * Properties *)

(** ** Trimming and blank strings *)

Lemma trimStart_blank (s : jsstring) : blank s = true -> trimStart s = [].
Proof.
  induction s as [|c r IH]; simpl; [done|].
  intros [Hc Hr]%andb_prop. rewrite Hc. auto.
Qed.

Lemma trimStart_not_blank (s : jsstring) :
  blank s = false ->
  exists c r, trimStart s = c :: r /\ isWhiteSpace c = false.
Proof.
  induction s as [|c r IH]; simpl; [done|].
  destruct (isWhiteSpace c) eqn:Hc; simpl; [exact IH|].
  intros _. by exists c, r.
Qed.

Lemma trimStart_snoc (s : jsstring) (c : N) :
  isWhiteSpace c = false -> trimStart (s ++ [c]) <> [].
Proof.
  intros Hc. induction s as [|d r IH]; simpl.
  - by rewrite Hc.
  - by destruct (isWhiteSpace d).
Qed.

(** The test the components make, [s.trim()] taken as a condition, holds
    exactly of the strings that are not blank. *)
Lemma truthy_trim (s : jsstring) : truthy (trim s) = negb (blank s).
Proof.
  unfold trim, trimEnd. destruct (blank s) eqn:Hb; simpl.
  - by rewrite (trimStart_blank s Hb).
  - destruct (trimStart_not_blank s Hb) as (c & r & -> & Hc). simpl.
    pose proof (trimStart_snoc (rev r) c Hc) as Hne.
    destruct (trimStart (rev r ++ [c])) as [|d l] eqn:E; [done|].
    simpl. by destruct (rev l).
Qed.

Lemma trim_blank (s : jsstring) : blank s = true <-> trim s = [].
Proof.
  pose proof (truthy_trim s) as H.
  destruct (blank s), (trim s); simpl in *; split; congruence.
Qed.

Lemma trimStart_head (s : jsstring) c r :
  trimStart s = c :: r -> isWhiteSpace c = false.
Proof.
  induction s as [|a s IH]; simpl; [done|].
  destruct (isWhiteSpace a) eqn:Ha; [exact IH|]. by intros [= <- _].
Qed.

(** What [trimStart] strips is a blank prefix. *)
Lemma trimStart_split (s : jsstring) :
  exists p, s = p ++ trimStart s /\ blank p = true.
Proof.
  induction s as [|a s (p & IH & Hp)]; simpl; [by exists []|].
  destruct (isWhiteSpace a) eqn:Ha.
  - exists (a :: p). simpl. rewrite <- IH, Ha. by split.
  - by exists [].
Qed.

Lemma trimStart_suffix (s : jsstring) : exists p, s = p ++ trimStart s.
Proof. destruct (trimStart_split s) as (p & H & _). by exists p. Qed.

Lemma blank_rev (s : jsstring) : blank (rev s) = blank s.
Proof.
  unfold blank. induction s as [|a s IH]; simpl; [done|].
  rewrite forallb_app, IH. simpl. rewrite andb_true_r. apply andb_comm.
Qed.

(** What [trimEnd] strips is a blank suffix. *)
Lemma trimEnd_split (s : jsstring) :
  exists q, s = trimEnd s ++ q /\ blank q = true.
Proof.
  unfold trimEnd. destruct (trimStart_split (rev s)) as (p & H & Hp).
  exists (rev p). split; [|by rewrite blank_rev].
  rewrite <- rev_app_distr, <- H. by rewrite rev_involutive.
Qed.

(** [trim] keeps the text between a blank prefix and a blank suffix. *)
Lemma trim_split (s : jsstring) :
  exists p q, s = p ++ trim s ++ q /\ blank p = true /\ blank q = true.
Proof.
  unfold trim. destruct (trimStart_split s) as (p & H & Hp).
  destruct (trimEnd_split (trimStart s)) as (q & H' & Hq).
  exists p, q. split; [|by split]. by rewrite <- H', <- H.
Qed.

(** A non-empty suffix of a list that ends in [c] ends in [c]. *)
Lemma suffix_last (p x y : jsstring) (c : N) :
  p ++ x = y ++ [c] -> x <> [] -> exists m, x = m ++ [c].
Proof.
  revert p y. induction x as [|a x IH] using rev_ind; [done|].
  intros p y H _. exists x. rewrite app_assoc in H.
  apply app_inj_tail in H as [_ ->]. done.
Qed.

Lemma trim_clean (s : jsstring) : blank s = false -> clean (trim s) = true.
Proof.
  intros Hb. unfold trim, trimEnd.
  destruct (trimStart_not_blank s Hb) as (c & r & -> & Hc).
  simpl rev.
  pose proof (trimStart_snoc (rev r) c Hc) as Hne.
  destruct (trimStart_suffix (rev r ++ [c])) as [p Hp].
  destruct (suffix_last p _ (rev r) c (eq_sym Hp) Hne) as [m Hm].
  destruct (trimStart (rev r ++ [c])) as [|d l] eqn:E; [done|].
  pose proof (trimStart_head _ _ _ E) as Hd.
  unfold clean.
  assert (last (rev (d :: l)) = Some d) as ->.
  { simpl rev. apply last_snoc. }
  rewrite Hm, rev_app_distr. simpl. by rewrite Hc, Hd.
Qed.

Example trim_buy_milk : trim (js "  Buy milk ") = js "Buy milk".
Proof. reflexivity. Qed.

Example trim_line_ends : trim [0x0A; 0x2003; 0x61; 0x20; 0x62; 0xFEFF; 0x0D] = [0x61; 0x20; 0x62].
Proof. reflexivity. Qed.

Example blank_tabs : blank [0x09; 0x20; 0xA0] = true /\ blank [] = true.
Proof. split; reflexivity. Qed.

(** ** What a wrapper settles with *)

Lemma listTodos_run net sent :
  listTodos net sent =
  (answer (js "Failed to load todos") (fetch_todos net sent listRequest),
   sent ++ [listRequest]).
Proof.
  unfold listTodos, bind, fetch, answer, throw, settle.
  destruct (fetch_todos net sent listRequest) as [[[] ?]|]; reflexivity.
Qed.

Lemma createTodo_run net title sent :
  createTodo net title sent =
  (answer (js "Failed to create todo")
     (fetch_todo net sent (createRequest title)),
   sent ++ [createRequest title]).
Proof.
  unfold createTodo, bind, fetch, answer, throw, settle.
  destruct (fetch_todo net sent (createRequest title)) as [[[] ?]|];
    reflexivity.
Qed.

Lemma updateTodo_run net id patch sent :
  updateTodo net id patch sent =
  (answer (js "Failed to update todo")
     (fetch_todo net sent (updateRequest id patch)),
   sent ++ [updateRequest id patch]).
Proof.
  unfold updateTodo, bind, fetch, answer, throw, settle.
  destruct (fetch_todo net sent (updateRequest id patch)) as [[[] ?]|];
    reflexivity.
Qed.

Lemma deleteTodo_run net id sent :
  deleteTodo net id sent =
  (match fetch_none net sent (deleteRequest id) with
   | Rejected e => Rejected e
   | Resolved res =>
       if ok res then Resolved true
       else Rejected (Error (js "Failed to delete todo"))
   end,
   sent ++ [deleteRequest id]).
Proof.
  unfold deleteTodo, bind, fetch, throw, ret.
  destruct (fetch_none net sent (deleteRequest id)) as [[[] ?]|];
    reflexivity.
Qed.

(** ** What a handler does to the world *)

Lemma handleAdd_run net title w :
  handleAdd net title w =
  match answer (js "Failed to create todo")
          (fetch_todo net (sent w) (createRequest title)) with
  | Resolved created =>
      (Resolved tt,
       with_todos (todos w ++ [created]) (sending (createRequest title) w))
  | Rejected e => (Rejected e, sending (createRequest title) w)
  end.
Proof.
  unfold handleAdd, bind, api, zoom. rewrite createTodo_run.
  destruct (answer _ _); reflexivity.
Qed.

Lemma handleToggle_run net id completed w :
  let req := updateRequest id [(js "completed", JBool completed)] in
  handleToggle net id completed w =
  match answer (js "Failed to update todo") (fetch_todo net (sent w) req) with
  | Resolved updated =>
      (Resolved tt,
       with_todos
         ((fun t => if bool_decide (todo_id t = id) then updated else t)
            <$> todos w)
         (sending req w))
  | Rejected e => (Rejected e, sending req w)
  end.
Proof.
  unfold handleToggle, bind, api, zoom. rewrite updateTodo_run.
  simpl. destruct (answer _ _); reflexivity.
Qed.

Lemma handleEdit_run net id title w :
  let req := updateRequest id [(js "title", JString title)] in
  handleEdit net id title w =
  match answer (js "Failed to update todo") (fetch_todo net (sent w) req) with
  | Resolved updated =>
      (Resolved tt,
       with_todos
         ((fun t => if bool_decide (todo_id t = id) then updated else t)
            <$> todos w)
         (sending req w))
  | Rejected e => (Rejected e, sending req w)
  end.
Proof.
  unfold handleEdit, bind, api, zoom. rewrite updateTodo_run.
  simpl. destruct (answer _ _); reflexivity.
Qed.

Lemma handleDelete_run net id w :
  handleDelete net id w =
  match fetch_none net (sent w) (deleteRequest id) with
  | Rejected e => (Rejected e, sending (deleteRequest id) w)
  | Resolved res =>
      if ok res
      then (Resolved tt,
            with_todos (filter (fun t => todo_id t ≠ id) (todos w))
              (sending (deleteRequest id) w))
      else (Rejected (Error (js "Failed to delete todo")),
            sending (deleteRequest id) w)
  end.
Proof.
  unfold handleDelete, bind, api, zoom. rewrite deleteTodo_run.
  destruct (fetch_none net (sent w) (deleteRequest id)) as [[[] ?]|];
    reflexivity.
Qed.

(** Replacing by identifier, read position by position. *)
Lemma replace_lookup (id : Id) (updated : Todo) (l : list Todo) i :
  ((fun t => if bool_decide (todo_id t = id) then updated else t) <$> l) !! i
  = (fun t => if bool_decide (todo_id t = id) then updated else t) <$> l !! i.
Proof. apply list_lookup_fmap. Qed.

Lemma replace_absent (id : Id) (updated : Todo) (l : list Todo) :
  id ∉ todo_id <$> l ->
  (fun t => if bool_decide (todo_id t = id) then updated else t) <$> l = l.
Proof.
  induction l as [|t l IH]; [done|].
  rewrite !fmap_cons. intros [Hne Hl]%not_elem_of_cons.
  rewrite bool_decide_eq_false_2 by congruence. by rewrite IH.
Qed.

Lemma filter_absent (id : Id) (l : list Todo) :
  id ∉ todo_id <$> l -> filter (fun t => todo_id t ≠ id) l = l.
Proof.
  induction l as [|t l IH]; [done|].
  rewrite fmap_cons. intros [Hne Hl]%not_elem_of_cons.
  rewrite filter_cons_True by congruence. by rewrite IH.
Qed.

(** A filter and its complement split the length. *)
Lemma filter_id_length (id : Id) (l : list Todo) :
  (length (filter (fun t => todo_id t ≠ id) l)
   + length (filter (fun t => todo_id t = id) l))%nat = length l.
Proof.
  induction l as [|t l IH]; [done|].
  destruct (decide (todo_id t = id)) as [E|E].
  - rewrite filter_cons_False by (intros H; by apply H).
    rewrite (filter_cons_True (fun t => todo_id t = id)) by done.
    simpl. lia.
  - rewrite filter_cons_True by done.
    rewrite (filter_cons_False (fun t => todo_id t = id)) by done.
    simpl. lia.
Qed.

(** ** The root component *)

(** Any rejection of a mutation leaves the three state cells as they
    were: only the request log has grown. *)
Lemma perform_rejected net op w e w' :
  perform net op w = (Rejected e, w') -> w' = sending (request_of op) w.
Proof.
  destruct op as [title|id newValue|id newTitle|id]; simpl.
  - rewrite handleAdd_run. destruct (answer _ _); congruence.
  - rewrite handleToggle_run. simpl. destruct (answer _ _); congruence.
  - rewrite handleEdit_run. simpl. destruct (answer _ _); congruence.
  - rewrite handleDelete_run.
    destruct (fetch_none _ _ _) as [[[] ?]|]; simpl; congruence.
Qed.

(** C1. For each of the four mutations and every state of the root
    component: when the response to the mutation's request has a
    non-success status the handler is rejected with the wrapper's failure
    and the collection, the loading flag and the error cell are what they
    were, the request having been sent; and whenever the handler is
    rejected, for that or any other reason, the collection is what it
    was. *)
Theorem mutation_atomic net op w :
  (status net op (sent w) = Some false ->
   perform net op w
   = (Rejected (Error (failure_of op)), sending (request_of op) w)) /\
  (forall e w', perform net op w = (Rejected e, w') -> todos w' = todos w).
Proof.
  split.
  - destruct op as [title|id newValue|id newTitle|id]; simpl; unfold ok_of.
    + rewrite handleAdd_run. unfold answer.
      destruct (fetch_todo _ _ _) as [[[] ?]|]; simpl; congruence.
    + rewrite handleToggle_run. unfold answer. simpl.
      destruct (fetch_todo _ _ _) as [[[] ?]|]; simpl; congruence.
    + rewrite handleEdit_run. unfold answer. simpl.
      destruct (fetch_todo _ _ _) as [[[] ?]|]; simpl; congruence.
    + rewrite handleDelete_run.
      destruct (fetch_none _ _ _) as [[[] ?]|]; simpl; congruence.
  - intros e w' H. by rewrite (perform_rejected _ _ _ _ _ H).
Qed.

Lemma mutation_atomic_witness :
  status net_refusing (Remove (IdNum 1)) (sent (loaded [learn])) = Some false /\
  perform net_refusing (Remove (IdNum 1)) (loaded [learn])
  = (Rejected (Error (js "Failed to delete todo")),
     sending (deleteRequest (IdNum 1)) (loaded [learn])) /\
  todos (snd (perform net_refusing (ToggleComplete (IdNum 1) true)
                (loaded [learn]))) = [learn].
Proof.
  split; [reflexivity|]. split.
  - apply (proj1 (mutation_atomic net_refusing (Remove (IdNum 1))
                    (loaded [learn]))).
    reflexivity.
  - apply (proj2 (mutation_atomic net_refusing (ToggleComplete (IdNum 1) true)
                    (loaded [learn]))
             (Error (js "Failed to update todo"))).
    reflexivity.
Defined.

(** A successful add, by itself. *)
Lemma handleAdd_success net title created w :
  fetch_todo net (sent w) (createRequest title) = success created ->
  handleAdd net title w =
  (Resolved tt,
   with_todos (todos w ++ [created]) (sending (createRequest title) w)).
Proof. intros H. rewrite handleAdd_run, H. reflexivity. Qed.

Lemma handleDelete_success net id res w :
  fetch_none net (sent w) (deleteRequest id) = Resolved res ->
  ok res = true ->
  handleDelete net id w =
  (Resolved tt,
   with_todos (filter (fun t => todo_id t ≠ id) (todos w))
     (sending (deleteRequest id) w)).
Proof. intros H Hok. rewrite handleDelete_run, H, Hok. reflexivity. Qed.

(** The input component, whatever the callback. *)
Lemma submit_run {W} (onAdd : jsstring -> M W unit) field (w : W) :
  submit onAdd (field, w) =
  if blank field then (Resolved tt, (field, w))
  else match onAdd (trim field) w with
       | (Resolved _, w') => (Resolved tt, (js "", w'))
       | (Rejected e, w') => (Rejected e, (field, w'))
       end.
Proof.
  unfold submit, bind, gets, parent, zoom, setTitle, modify, ret. simpl.
  rewrite truthy_trim, negb_involutive.
  destruct (blank field); [reflexivity|]. cbn.
  destruct (onAdd (trim field) w) as [[[]|e] w']; reflexivity.
Qed.

(** C2. When the text of the field has a non-empty trimmed form, the
    server answers the create request for that trimmed form with a
    success status and a record that echoes it as title, then submitting
    the form resolves, the collection is the former one with that record
    appended: one element longer, its last element carrying the trimmed
    text as title. *)
Theorem add_appends net field created w :
  trim field <> [] ->
  fetch_todo net (sent w) (createRequest (trim field)) = success created ->
  todo_title created = trim field ->
  exists w',
    submit (handleAdd net) (field, w) = (Resolved tt, (js "", w')) /\
    todos w' = todos w ++ [created] /\
    length (todos w') = S (length (todos w)) /\
    todo_title <$> last (todos w') = Some (trim field).
Proof.
  intros Hne Hres Htitle.
  assert (blank field = false) as Hb.
  { destruct (blank field) eqn:E; [|done]. by apply trim_blank in E. }
  eexists. rewrite submit_run, Hb, (handleAdd_success _ _ _ _ Hres).
  split; [reflexivity|]. simpl.
  split; [reflexivity|]. split.
  - rewrite length_app. simpl. lia.
  - rewrite last_snoc. simpl. by rewrite Htitle.
Qed.

Lemma add_appends_witness :
  exists w',
    submit (handleAdd (net_const milk)) (js "  Buy milk ", loaded [learn])
    = (Resolved tt, (js "", w')) /\
    todos w' = [learn] ++ [milk] /\
    length (todos w') = 2%nat /\
    todo_title <$> last (todos w') = Some (js "Buy milk").
Proof.
  apply (add_appends (net_const milk) (js "  Buy milk ") milk (loaded [learn]));
    [discriminate | reflexivity | reflexivity].
Defined.

(** C3. When the collection holds a record with the identifier and the
    server answers the update request with a success status and a record,
    toggling resolves; the collection keeps its length; at every position
    whose element has another identifier the element is the one that was
    there; at every position whose element has the identifier the element
    is the server's record, and there is such a position. *)
Theorem toggle_frame net id newValue updated w :
  id ∈ todo_id <$> todos w ->
  fetch_todo net (sent w) (updateRequest id [(js "completed", JBool newValue)])
  = success updated ->
  exists w',
    handleToggle net id newValue w = (Resolved tt, w') /\
    length (todos w') = length (todos w) /\
    (forall i t, todos w !! i = Some t -> todo_id t ≠ id ->
                 todos w' !! i = Some t) /\
    (forall i t, todos w !! i = Some t -> todo_id t = id ->
                 todos w' !! i = Some updated) /\
    (exists i, todos w' !! i = Some updated).
Proof.
  intros Hin Hres. eexists. rewrite handleToggle_run. simpl.
  rewrite Hres. simpl. split; [reflexivity|]. simpl.
  split; [apply length_fmap|].
  assert (forall i t, todos w !! i = Some t -> todo_id t = id ->
            ((fun t => if bool_decide (todo_id t = id) then updated else t)
               <$> todos w) !! i = Some updated) as Hhit.
  { intros i t Hi Hid. rewrite replace_lookup, Hi. simpl.
    by rewrite bool_decide_eq_true_2. }
  split; [|split; [exact Hhit|]].
  - intros i t Hi Hid. rewrite replace_lookup, Hi. simpl.
    by rewrite bool_decide_eq_false_2.
  - apply list_elem_of_fmap in Hin as (t & -> & Ht).
    apply list_elem_of_lookup in Ht as [i Hi]. exists i. by apply (Hhit i t).
Qed.

Lemma toggle_frame_witness :
  exists w',
    handleToggle (net_const learn_done) (IdNum 1) true (loaded [learn; milk])
    = (Resolved tt, w') /\
    length (todos w') = 2%nat /\
    (forall i t, [learn; milk] !! i = Some t -> todo_id t ≠ IdNum 1 ->
                 todos w' !! i = Some t) /\
    (forall i t, [learn; milk] !! i = Some t -> todo_id t = IdNum 1 ->
                 todos w' !! i = Some learn_done) /\
    (exists i, todos w' !! i = Some learn_done).
Proof.
  apply (toggle_frame (net_const learn_done) (IdNum 1) true learn_done
           (loaded [learn; milk])).
  - apply list_elem_of_here.
  - reflexivity.
Defined.

(** C4, as stated, fails where the server hands out an identifier that a
    record of the collection already carries: removing by that identifier
    drops the old record together with the new one. *)
Lemma add_remove_roundtrip_counterexample :
  fst (handleAdd (net_const milk_dup) (js "Buy milk") (loaded [learn]))
  = Resolved tt /\
  fst (handleDelete (net_const milk_dup) (todo_id milk_dup)
         (snd (handleAdd (net_const milk_dup) (js "Buy milk")
                 (loaded [learn]))))
  = Resolved tt /\
  todos (snd (handleDelete (net_const milk_dup) (todo_id milk_dup)
                (snd (handleAdd (net_const milk_dup) (js "Buy milk")
                        (loaded [learn])))))
  <> todos (loaded [learn]).
Proof. repeat split; discriminate. Qed.

(** C4, amended. When no record of the collection carries the identifier
    of the record the server created, a successful add followed by a
    successful remove of that identifier gives back the collection as it
    was before the add. *)
Theorem add_remove_roundtrip net title created res w :
  todo_id created ∉ todo_id <$> todos w ->
  fetch_todo net (sent w) (createRequest title) = success created ->
  fetch_none net (sent w ++ [createRequest title])
    (deleteRequest (todo_id created)) = Resolved res ->
  ok res = true ->
  exists w1 w2,
    handleAdd net title w = (Resolved tt, w1) /\
    handleDelete net (todo_id created) w1 = (Resolved tt, w2) /\
    todos w2 = todos w.
Proof.
  intros Hfresh Hadd Hdel Hok. do 2 eexists.
  split; [by apply handleAdd_success|].
  split; [by eapply handleDelete_success|]. simpl.
  rewrite filter_app, (filter_absent _ _ Hfresh).
  rewrite filter_cons_False by (intros H; by apply H).
  by rewrite filter_nil, app_nil_r.
Qed.

Lemma add_remove_roundtrip_witness :
  exists w1 w2,
    handleAdd (net_const milk) (js "Buy milk") (loaded [learn])
    = (Resolved tt, w1) /\
    handleDelete (net_const milk) (IdNum 2) w1 = (Resolved tt, w2) /\
    todos w2 = [learn].
Proof.
  apply (add_remove_roundtrip (net_const milk) (js "Buy milk") milk
           (mkResponse true (Resolved tt)) (loaded [learn])).
  - intros [H|H]%elem_of_cons; [discriminate H | inversion H].
  - reflexivity.
  - reflexivity.
  - reflexivity.
Defined.

(** C5, as stated, fails on a collection in which two records carry the
    identifier: both go, and the collection is two elements shorter. *)
Lemma remove_one_fewer_counterexample :
  IdNum 1 ∈ todo_id <$> todos (loaded [learn; milk_dup]) /\
  fst (handleDelete (net_const milk) (IdNum 1) (loaded [learn; milk_dup]))
  = Resolved tt /\
  S (length (todos (snd (handleDelete (net_const milk) (IdNum 1)
                           (loaded [learn; milk_dup])))))
  <> length (todos (loaded [learn; milk_dup])).
Proof. split; [apply list_elem_of_here|]. split; [reflexivity|discriminate]. Qed.

(** C5, amended. When exactly one record of the collection carries the
    identifier, a successful remove yields a collection with exactly one
    element fewer and no element with that identifier. *)
Theorem remove_one_fewer net id res w :
  length (filter (fun t => todo_id t = id) (todos w)) = 1%nat ->
  fetch_none net (sent w) (deleteRequest id) = Resolved res ->
  ok res = true ->
  exists w',
    handleDelete net id w = (Resolved tt, w') /\
    S (length (todos w')) = length (todos w) /\
    id ∉ todo_id <$> todos w'.
Proof.
  intros Hone Hdel Hok. eexists.
  split; [by eapply handleDelete_success|]. simpl. split.
  - pose proof (filter_id_length id (todos w)). lia.
  - intros (t & Hid & Ht)%list_elem_of_fmap.
    apply list_elem_of_filter in Ht as [Hne _]. by apply Hne.
Qed.

Lemma remove_one_fewer_witness :
  exists w',
    handleDelete (net_const milk) (IdNum 1) (loaded [learn; milk])
    = (Resolved tt, w') /\
    S (length (todos w')) = 2%nat /\
    IdNum 1 ∉ todo_id <$> todos w'.
Proof.
  apply (remove_one_fewer (net_const milk) (IdNum 1)
           (mkResponse true (Resolved tt)) (loaded [learn; milk]));
    reflexivity.
Defined.

(** C9. When no record of the collection carries the identifier, a
    successful toggle and a successful title edit for it each leave the
    collection as it was, element by element. *)
Theorem update_absent_id net id w :
  id ∉ todo_id <$> todos w ->
  (forall newValue updated,
     fetch_todo net (sent w)
       (updateRequest id [(js "completed", JBool newValue)]) = success updated ->
     exists w', handleToggle net id newValue w = (Resolved tt, w') /\
                todos w' = todos w) /\
  (forall newTitle updated,
     fetch_todo net (sent w)
       (updateRequest id [(js "title", JString newTitle)]) = success updated ->
     exists w', handleEdit net id newTitle w = (Resolved tt, w') /\
                todos w' = todos w).
Proof.
  intros Habsent. split.
  - intros newValue updated Hres. eexists. rewrite handleToggle_run. simpl.
    rewrite Hres. simpl. split; [reflexivity|]. by apply replace_absent.
  - intros newTitle updated Hres. eexists. rewrite handleEdit_run. simpl.
    rewrite Hres. simpl. split; [reflexivity|]. by apply replace_absent.
Qed.

Lemma update_absent_id_witness :
  (exists w', handleToggle (net_const milk) (IdNum 2) true (loaded [learn])
              = (Resolved tt, w') /\ todos w' = [learn]) /\
  (exists w', handleEdit (net_const milk) (IdNum 2) (js "Buy milk")
                (loaded [learn])
              = (Resolved tt, w') /\ todos w' = [learn]).
Proof.
  assert (IdNum 2 ∉ todo_id <$> todos (loaded [learn])) as Habsent.
  { intros [H|H]%elem_of_cons; [discriminate H | inversion H]. }
  split.
  - apply (proj1 (update_absent_id (net_const milk) (IdNum 2) (loaded [learn])
                    Habsent) true milk).
    reflexivity.
  - apply (proj2 (update_absent_id (net_const milk) (IdNum 2) (loaded [learn])
                    Habsent) (js "Buy milk") milk).
    reflexivity.
Defined.

(** C10. A successful remove keeps, in their order, exactly the records
    whose identifier differs from the given one: every record carrying it
    is dropped, however many there are, and when none carries it the
    collection is unchanged. *)
Theorem remove_drops_all net id res w :
  fetch_none net (sent w) (deleteRequest id) = Resolved res ->
  ok res = true ->
  exists w',
    handleDelete net id w = (Resolved tt, w') /\
    todos w' = filter (fun t => todo_id t ≠ id) (todos w) /\
    (forall t, t ∈ todos w' <-> t ∈ todos w /\ todo_id t ≠ id) /\
    (id ∉ todo_id <$> todos w') /\
    (length (todos w')
     + length (filter (fun t => todo_id t = id) (todos w)))%nat
    = length (todos w) /\
    (todos w' `sublist_of` todos w) /\
    (id ∉ todo_id <$> todos w -> todos w' = todos w).
Proof.
  intros Hdel Hok. eexists.
  split; [by eapply handleDelete_success|]. simpl.
  split; [reflexivity|]. split; [|split; [|split; [|split]]].
  - intros t. rewrite list_elem_of_filter. tauto.
  - intros (t & Hid & Ht)%list_elem_of_fmap.
    apply list_elem_of_filter in Ht as [Hne _]. by apply Hne.
  - apply filter_id_length.
  - apply sublist_filter.
  - apply filter_absent.
Qed.

Lemma remove_drops_all_witness :
  exists w',
    handleDelete (net_const milk) (IdNum 1) (loaded [learn; milk; milk_dup])
    = (Resolved tt, w') /\
    todos w' = [milk].
Proof.
  destruct (remove_drops_all (net_const milk) (IdNum 1)
              (mkResponse true (Resolved tt))
              (loaded [learn; milk; milk_dup]) eq_refl eq_refl)
    as (w' & Hrun & Htodos & _).
  exists w'. split; [exact Hrun|]. rewrite Htodos. reflexivity.
Defined.

(** ** The item component *)

(** C6. Whatever the record, the draft, the edit callback and the state
    the callback acts on: when the draft equals the record's title, or is
    empty or all white space, saving only leaves edit mode.  The state
    the callback acts on is returned as it was, so the callback has not
    run; with the root component's edit handler as callback, no request
    has been sent and the collection has not moved. *)
Theorem save_noop {W} (todo : Todo) (onEdit : Id -> jsstring -> M W unit)
    (s : ItemState) (w : W) :
  draft s = todo_title todo \/ blank (draft s) = true ->
  save todo onEdit (s, w) = (Resolved tt, (mkItemState false (draft s), w)).
Proof.
  intros H. unfold save, bind, gets, setIsEditing, modify. simpl.
  assert (truthy (trim (draft s)) && bool_decide (draft s ≠ todo_title todo)
          = false) as ->; [|reflexivity].
  rewrite truthy_trim. destruct H as [H|H].
  - rewrite bool_decide_eq_false_2 by (intros Hne; by apply Hne).
    apply andb_false_r.
  - by rewrite H.
Qed.

Lemma save_noop_witness :
  save learn (handleEdit net_refusing)
    (mkItemState true (js "Learn"), loaded [learn])
  = (Resolved tt, (mkItemState false (js "Learn"), loaded [learn])) /\
  save learn (handleEdit net_refusing)
    (mkItemState true (js "   "), loaded [learn])
  = (Resolved tt, (mkItemState false (js "   "), loaded [learn])).
Proof.
  split.
  - apply (save_noop learn (handleEdit net_refusing)
             (mkItemState true (js "Learn")) (loaded [learn])).
    left. reflexivity.
  - apply (save_noop learn (handleEdit net_refusing)
             (mkItemState true (js "   ")) (loaded [learn])).
    right. reflexivity.
Defined.

(** Outside those cases the callback does run, with the trimmed draft. *)
Lemma save_calls {W} (todo : Todo) (onEdit : Id -> jsstring -> M W unit)
    (s : ItemState) (w : W) :
  draft s <> todo_title todo -> blank (draft s) = false ->
  save todo onEdit (s, w) =
  match onEdit (todo_id todo) (trim (draft s)) w with
  | (Resolved _, w') => (Resolved tt, (mkItemState false (draft s), w'))
  | (Rejected e, w') => (Rejected e, (s, w'))
  end.
Proof.
  intros Hne Hb. unfold save, bind, gets, setIsEditing, modify. simpl.
  rewrite truthy_trim, Hb, bool_decide_eq_true_2 by done. simpl.
  unfold parent, zoom. cbn.
  destruct (onEdit (todo_id todo) (trim (draft s)) w) as [[[]|e] w'];
    [reflexivity|]. by destruct s.
Qed.

(** ** The input component *)

(** C7. When the text of the field is empty or all white space,
    submitting resolves with the field and the state the callback acts on
    as they were: the add callback has not run, so no create request is
    sent and the collection does not move.  Otherwise submitting is the
    add callback run once on the trimmed text, which is the text of the
    field without the white space before and after it: it is not empty,
    has no white space at either end, and the field is it between a blank
    prefix and a blank suffix.  When the callback resolves the field is
    cleared; when it is rejected the submit is rejected with the same
    error and the field keeps its text. *)
Theorem submit_guard {W} (onAdd : jsstring -> M W unit) (field : jsstring)
    (w : W) :
  (blank field = true ->
   submit onAdd (field, w) = (Resolved tt, (field, w))) /\
  (blank field = false ->
   clean (trim field) = true /\
   (exists p q,
      field = p ++ trim field ++ q /\ blank p = true /\ blank q = true) /\
   (forall w', onAdd (trim field) w = (Resolved tt, w') ->
               submit onAdd (field, w) = (Resolved tt, (js "", w'))) /\
   (forall e w', onAdd (trim field) w = (Rejected e, w') ->
                 submit onAdd (field, w) = (Rejected e, (field, w')))).
Proof.
  rewrite submit_run. split; intros Hb; rewrite Hb; [reflexivity|].
  split; [by apply trim_clean|]. split; [apply trim_split|].
  split; intros; by rewrite H.
Qed.

Lemma submit_guard_witness :
  submit (handleAdd (net_const milk)) (js "   ", loaded [learn])
  = (Resolved tt, (js "   ", loaded [learn])) /\
  clean (js "Buy milk") = true /\
  submit (handleAdd (net_const milk)) (js "  Buy milk  ", loaded [learn])
  = (Resolved tt,
     (js "",
      with_todos [learn; milk]
        (sending (createRequest (js "Buy milk")) (loaded [learn])))) /\
  submit (handleAdd net_refusing) (js "  Buy milk  ", loaded [learn])
  = (Rejected (Error (js "Failed to create todo")),
     (js "  Buy milk  ",
      sending (createRequest (js "Buy milk")) (loaded [learn]))).
Proof.
  split; [|split; [|split]].
  - apply (proj1 (submit_guard (handleAdd (net_const milk)) (js "   ")
                    (loaded [learn]))).
    reflexivity.
  - apply (proj1 (proj2 (submit_guard (handleAdd (net_const milk))
                           (js "  Buy milk  ") (loaded [learn])) eq_refl)).
  - apply (proj1 (proj2 (proj2 (proj2 (submit_guard (handleAdd (net_const milk))
                           (js "  Buy milk  ") (loaded [learn])) eq_refl))));
      reflexivity.
  - apply (proj2 (proj2 (proj2 (proj2 (submit_guard (handleAdd net_refusing)
                           (js "  Buy milk  ") (loaded [learn])) eq_refl))));
      reflexivity.
Defined.

(** ** The transport wrappers *)

(** C8, as stated, fails for the three wrappers that read the body: a
    response with a success status whose body is not JSON makes them fail,
    and with the decoder's error, not with the wrapper's fixed message. *)
Lemma transport_failure_counterexample :
  ok_of (fetch_todos net_empty_body [] listRequest) = Some true /\
  fst (listTodos net_empty_body [])
  = Rejected (SyntaxError (js "Unexpected end of JSON input")) /\
  message (SyntaxError (js "Unexpected end of JSON input"))
  <> js "Failed to load todos".
Proof. repeat split; discriminate. Qed.

(** C8, amended. Given the response to its request, each wrapper fails
    with exactly its fixed message when the status is a non-success one;
    on a success status the delete wrapper returns [true], and the list,
    create and update wrappers settle as the decoding of the body does:
    with the decoded body, or with the decoder's error when the body is
    not JSON.  So the delete wrapper fails exactly on a non-success
    status, and so does each of the other three whenever the body
    decodes. *)
Theorem transport_outcomes net history :
  (forall res,
     fetch_todos net history listRequest = Resolved res ->
     fst (listTodos net history)
     = (if ok res then json res
        else Rejected (Error (js "Failed to load todos"))) /\
     (forall body, json res = Resolved body ->
        (exists e, fst (listTodos net history) = Rejected e)
        <-> ok res = false)) /\
  (forall title res,
     fetch_todo net history (createRequest title) = Resolved res ->
     fst (createTodo net title history)
     = (if ok res then json res
        else Rejected (Error (js "Failed to create todo"))) /\
     (forall body, json res = Resolved body ->
        (exists e, fst (createTodo net title history) = Rejected e)
        <-> ok res = false)) /\
  (forall id patch res,
     fetch_todo net history (updateRequest id patch) = Resolved res ->
     fst (updateTodo net id patch history)
     = (if ok res then json res
        else Rejected (Error (js "Failed to update todo"))) /\
     (forall body, json res = Resolved body ->
        (exists e, fst (updateTodo net id patch history) = Rejected e)
        <-> ok res = false)) /\
  (forall id res,
     fetch_none net history (deleteRequest id) = Resolved res ->
     fst (deleteTodo net id history)
     = (if ok res then Resolved true
        else Rejected (Error (js "Failed to delete todo"))) /\
     ((exists e, fst (deleteTodo net id history) = Rejected e)
      <-> ok res = false)).
Proof.
  assert (forall A (failure : jsstring) (res : Response A) body,
            json res = Resolved body ->
            (exists e, (if ok res then json res
                        else Rejected (Error failure)) = Rejected e)
            <-> ok res = false) as Hiff.
  { intros A failure res body Hbody. rewrite Hbody.
    destruct (ok res); split; try done.
    - intros [e He]. discriminate He.
    - intros _. by eexists. }
  split; [|split; [|split]].
  - intros res Hres. rewrite listTodos_run, Hres. simpl.
    split; [reflexivity|]. intros body Hbody. by apply (Hiff _ _ _ body).
  - intros title res Hres. rewrite createTodo_run, Hres. simpl.
    split; [reflexivity|]. intros body Hbody. by apply (Hiff _ _ _ body).
  - intros id patch res Hres. rewrite updateTodo_run, Hres. simpl.
    split; [reflexivity|]. intros body Hbody. by apply (Hiff _ _ _ body).
  - intros id res Hres. rewrite deleteTodo_run, Hres. simpl.
    split; [reflexivity|]. destruct (ok res); split; try done.
    + intros [e He]. discriminate He.
    + intros _. by eexists.
Qed.

Lemma transport_outcomes_witness :
  fst (listTodos net_refusing [])
  = Rejected (Error (js "Failed to load todos")) /\
  fst (createTodo (net_const milk) (js "Buy milk") [listRequest])
  = Resolved milk /\
  fst (updateTodo net_empty_body (IdNum 1) [(js "completed", JBool true)] [])
  = Rejected (SyntaxError (js "Unexpected end of JSON input")) /\
  fst (deleteTodo (net_const milk) (IdNum 1) []) = Resolved true.
Proof.
  split; [|split; [|split]].
  - apply (proj1 (proj1 (transport_outcomes net_refusing []) _ eq_refl)).
  - apply (proj1 (proj1 (proj2 (transport_outcomes (net_const milk)
                                  [listRequest])) (js "Buy milk") _ eq_refl)).
  - apply (proj1 (proj1 (proj2 (proj2 (transport_outcomes net_empty_body [])))
                    (IdNum 1) [(js "completed", JBool true)] _ eq_refl)).
  - apply (proj1 (proj2 (proj2 (proj2 (transport_outcomes (net_const milk) [])))
                    (IdNum 1) _ eq_refl)).
Defined.

(** ** The initial load *)

(** The load replaces the collection on success and records the message
    on failure; the loading flag is cleared either way. *)
Lemma load_run net :
  load net initial =
  match answer (js "Failed to load todos") (fetch_todos net [] listRequest) with
  | Resolved data => (Resolved tt, mkWorld data false None [listRequest])
  | Rejected e => (Resolved tt, mkWorld [] false (Some (message e)) [listRequest])
  end.
Proof.
  unfold load, try_finally, try_catch, bind, api, zoom, setLoading, setTodos,
    setError, modify. simpl. rewrite listTodos_run.
  destruct (answer _ _); reflexivity.
Qed.

Example load_refused :
  load net_refusing initial
  = (Resolved tt,
     mkWorld [] false (Some (js "Failed to load todos")) [listRequest]).
Proof. reflexivity. Qed.

(** * Further properties of the code *)

(** ** The initial load, from any state *)

Lemma load_run_any net w :
  load net w =
  match answer (js "Failed to load todos")
          (fetch_todos net (sent w) listRequest) with
  | Resolved data =>
      (Resolved tt, mkWorld data false (error w) (sent w ++ [listRequest]))
  | Rejected e =>
      (Resolved tt,
       mkWorld (todos w) false (Some (message e)) (sent w ++ [listRequest]))
  end.
Proof.
  unfold load, try_finally, try_catch, bind, api, zoom, setLoading, setTodos,
    setError, modify. simpl. rewrite listTodos_run.
  destruct (answer _ _); reflexivity.
Qed.

(** X1. Once the list wrapper has settled, resolved or rejected, the
    load itself resolves: a rejection of the wrapper never leaves the
    effect.  The loading flag is then cleared, and the list request is
    the one request the load has sent. *)
Theorem load_swallows_rejection net w o history :
  listTodos net (sent w) = (o, history) ->
  exists w',
    load net w = (Resolved tt, w') /\
    loading w' = false /\
    sent w' = history /\
    history = sent w ++ [listRequest].
Proof.
  rewrite listTodos_run, load_run_any. intros [= <- <-].
  destruct (answer _ _); eexists; repeat split.
Qed.

Lemma load_swallows_rejection_witness :
  exists w',
    load net_offline initial = (Resolved tt, w') /\
    loading w' = false /\
    sent w' = [listRequest] /\
    [listRequest] = sent initial ++ [listRequest].
Proof.
  apply (load_swallows_rejection net_offline initial
           (Rejected (TypeError (js "Failed to fetch"))) [listRequest]).
  reflexivity.
Defined.

(** X2. When the list wrapper is rejected, the load records the error's
    message and leaves the collection as it was; for a non-success status
    the message is the wrapper's fixed one. *)
Theorem load_failure net w e :
  fst (listTodos net (sent w)) = Rejected e ->
  load net w
  = (Resolved tt,
     mkWorld (todos w) false (Some (message e)) (sent w ++ [listRequest])) /\
  (ok_of (fetch_todos net (sent w) listRequest) = Some false ->
   message e = js "Failed to load todos").
Proof.
  rewrite listTodos_run, load_run_any. simpl. intros He. rewrite He.
  split; [reflexivity|]. unfold answer, ok_of in *.
  destruct (fetch_todos _ _ _) as [[[] ?]|]; simpl in *; try discriminate.
  intros _. by inversion He.
Qed.

Lemma load_failure_witness :
  load net_refusing initial
  = (Resolved tt,
     mkWorld [] false (Some (js "Failed to load todos")) [listRequest]).
Proof.
  apply (proj1 (load_failure net_refusing initial
                  (Error (js "Failed to load todos")) eq_refl)).
Defined.

(** X3. When the list wrapper resolves, the load replaces the whole
    collection by the server's list, whatever it held, and leaves the
    error cell as it was: an earlier message is not cleared. *)
Theorem load_success net w data :
  fst (listTodos net (sent w)) = Resolved data ->
  load net w
  = (Resolved tt, mkWorld data false (error w) (sent w ++ [listRequest])).
Proof.
  rewrite listTodos_run, load_run_any. simpl. by intros ->.
Qed.

Lemma load_success_witness :
  load (net_const milk)
    (mkWorld [learn] true (Some (js "Failed to load todos")) [listRequest])
  = (Resolved tt,
     mkWorld [] false (Some (js "Failed to load todos"))
       [listRequest; listRequest]).
Proof.
  apply (load_success (net_const milk)
           (mkWorld [learn] true (Some (js "Failed to load todos"))
              [listRequest]) []).
  reflexivity.
Defined.

(** ** The mutation handlers *)

(** X4. A successful title edit keeps the length of the collection;
    positions whose element has another identifier keep their element,
    positions whose element has the identifier hold the server's record,
    whatever title it carries. *)
Theorem edit_frame net id newTitle updated w :
  fetch_todo net (sent w) (updateRequest id [(js "title", JString newTitle)])
  = success updated ->
  exists w',
    handleEdit net id newTitle w = (Resolved tt, w') /\
    length (todos w') = length (todos w) /\
    (forall i t, todos w !! i = Some t -> todo_id t ≠ id ->
                 todos w' !! i = Some t) /\
    (forall i t, todos w !! i = Some t -> todo_id t = id ->
                 todos w' !! i = Some updated).
Proof.
  intros Hres. eexists. rewrite handleEdit_run. simpl.
  rewrite Hres. simpl. split; [reflexivity|]. simpl.
  split; [apply length_fmap|]. split.
  - intros i t Hi Hid. rewrite replace_lookup, Hi. simpl.
    by rewrite bool_decide_eq_false_2.
  - intros i t Hi Hid. rewrite replace_lookup, Hi. simpl.
    by rewrite bool_decide_eq_true_2.
Qed.

Lemma edit_frame_witness :
  exists w',
    handleEdit (net_const milk_dup) (IdNum 1) (js "Buy milk")
      (loaded [learn; milk])
    = (Resolved tt, w') /\
    length (todos w') = 2%nat /\
    (forall i t, [learn; milk] !! i = Some t -> todo_id t ≠ IdNum 1 ->
                 todos w' !! i = Some t) /\
    (forall i t, [learn; milk] !! i = Some t -> todo_id t = IdNum 1 ->
                 todos w' !! i = Some milk_dup).
Proof.
  apply (edit_frame (net_const milk_dup) (IdNum 1) (js "Buy milk") milk_dup
           (loaded [learn; milk])).
  reflexivity.
Defined.

(** What every mutation leaves behind, resolved or rejected. *)
Lemma perform_footprint net op w :
  loading (snd (perform net op w)) = loading w /\
  error (snd (perform net op w)) = error w /\
  sent (snd (perform net op w)) = sent w ++ [request_of op].
Proof.
  destruct op as [title|id newValue|id newTitle|id]; simpl.
  - rewrite handleAdd_run. by destruct (answer _ _).
  - rewrite handleToggle_run. simpl. by destruct (answer _ _).
  - rewrite handleEdit_run. simpl. by destruct (answer _ _).
  - rewrite handleDelete_run.
    by destruct (fetch_none _ _ _) as [[[] ?]|].
Qed.

(** X5. No mutation handler, whether it resolves or is rejected, ever
    writes the loading flag or the error cell, and each sends exactly one
    request: its own, also when it fails.  A failed mutation is recorded
    nowhere in the root component's state. *)
Theorem mutation_footprint net op w :
  loading (snd (perform net op w)) = loading w /\
  error (snd (perform net op w)) = error w /\
  sent (snd (perform net op w)) = sent w ++ [request_of op] /\
  (forall e, fst (perform net op w) = Rejected e ->
     snd (perform net op w) = sending (request_of op) w).
Proof.
  destruct (perform_footprint net op w) as (Hl & He & Hs).
  repeat split; try done.
  intros e Hrej. apply (perform_rejected net op w e).
  rewrite <- Hrej. by destruct (perform net op w).
Qed.

Lemma mutation_footprint_witness :
  snd (perform net_offline (Add (js "Buy milk")) (loaded [learn]))
  = sending (createRequest (js "Buy milk")) (loaded [learn]).
Proof.
  apply (proj2 (proj2 (proj2 (mutation_footprint net_offline
                                (Add (js "Buy milk")) (loaded [learn]))))
           (TypeError (js "Failed to fetch"))).
  reflexivity.
Defined.

(** A delete whose response has a success status. *)
Lemma handleDelete_ok net id w :
  ok_of (fetch_none net (sent w) (deleteRequest id)) = Some true ->
  handleDelete net id w =
  (Resolved tt,
   with_todos (filter (fun t => todo_id t ≠ id) (todos w))
     (sending (deleteRequest id) w)).
Proof.
  intros H. rewrite handleDelete_run. unfold ok_of in H.
  destruct (fetch_none _ _ _) as [[[] ?]|]; simpl in *; congruence.
Qed.

Lemma replace_ids (id : Id) (updated : Todo) (l : list Todo) :
  todo_id updated = id ->
  todo_id <$> ((fun t => if bool_decide (todo_id t = id) then updated else t)
                 <$> l)
  = todo_id <$> l.
Proof.
  intros Hid. rewrite <- list_fmap_compose. apply list_fmap_ext.
  intros i t _. simpl. by case_bool_decide; subst.
Qed.

(** Under unique identifiers a record is known by its identifier. *)
Lemma unique_id_record (l : list Todo) t t' :
  NoDup (todo_id <$> l) -> t ∈ l -> t' ∈ l -> todo_id t' = todo_id t -> t' = t.
Proof.
  induction l as [|a l IH]; [by intros _ H%elem_of_nil|].
  rewrite fmap_cons. intros [Ha Hl]%NoDup_cons.
  intros [->|Ht]%elem_of_cons [->|Ht']%elem_of_cons Hid; [done| | |by apply IH].
  - exfalso. apply Ha. rewrite <- Hid. by apply list_elem_of_fmap_2.
  - exfalso. apply Ha. rewrite Hid. by apply list_elem_of_fmap_2.
Qed.

(** X6. When the server answers a toggle or a title edit with a record
    that carries the identifier asked for, the sequence of identifiers of
    the collection is what it was; so identifiers that were unique stay
    unique. *)
Theorem update_keeps_ids net id updated w :
  todo_id updated = id ->
  (forall newValue,
     fetch_todo net (sent w)
       (updateRequest id [(js "completed", JBool newValue)]) = success updated ->
     exists w', handleToggle net id newValue w = (Resolved tt, w') /\
                todo_id <$> todos w' = todo_id <$> todos w /\
                (NoDup (todo_id <$> todos w) -> NoDup (todo_id <$> todos w'))) /\
  (forall newTitle,
     fetch_todo net (sent w)
       (updateRequest id [(js "title", JString newTitle)]) = success updated ->
     exists w', handleEdit net id newTitle w = (Resolved tt, w') /\
                todo_id <$> todos w' = todo_id <$> todos w /\
                (NoDup (todo_id <$> todos w) -> NoDup (todo_id <$> todos w'))).
Proof.
  intros Hid. split.
  - intros newValue Hres. eexists. rewrite handleToggle_run. simpl.
    rewrite Hres. simpl. split; [reflexivity|]. simpl.
    rewrite (replace_ids _ _ _ Hid). by split.
  - intros newTitle Hres. eexists. rewrite handleEdit_run. simpl.
    rewrite Hres. simpl. split; [reflexivity|]. simpl.
    rewrite (replace_ids _ _ _ Hid). by split.
Qed.

Lemma update_keeps_ids_witness :
  exists w',
    handleToggle (net_const learn_done) (IdNum 1) true (loaded [learn; milk])
    = (Resolved tt, w') /\
    todo_id <$> todos w' = [IdNum 1; IdNum 2] /\
    (NoDup [IdNum 1; IdNum 2] -> NoDup (todo_id <$> todos w')).
Proof.
  apply (proj1 (update_keeps_ids (net_const learn_done) (IdNum 1) learn_done
                  (loaded [learn; milk]) eq_refl) true).
  reflexivity.
Defined.

(** X7. Removing is idempotent: after a successful remove of an
    identifier, a second successful remove of it leaves the collection as
    the first one left it. *)
Theorem remove_idempotent net id w :
  ok_of (fetch_none net (sent w) (deleteRequest id)) = Some true ->
  ok_of (fetch_none net (sent w ++ [deleteRequest id]) (deleteRequest id))
  = Some true ->
  exists w1 w2,
    handleDelete net id w = (Resolved tt, w1) /\
    handleDelete net id w1 = (Resolved tt, w2) /\
    todos w2 = todos w1.
Proof.
  intros H1 H2. do 2 eexists.
  split; [by apply handleDelete_ok|].
  split; [by apply handleDelete_ok|]. simpl.
  rewrite list_filter_filter. apply list_filter_iff. tauto.
Qed.

Lemma remove_idempotent_witness :
  exists w1 w2,
    handleDelete (net_const milk) (IdNum 1) (loaded [learn; milk])
    = (Resolved tt, w1) /\
    handleDelete (net_const milk) (IdNum 1) w1 = (Resolved tt, w2) /\
    todos w2 = todos w1.
Proof.
  apply (remove_idempotent (net_const milk) (IdNum 1) (loaded [learn; milk]));
    reflexivity.
Defined.

(** X8. Removes commute: two successful removes leave the same
    collection in either order. *)
Theorem remove_commute net net' a b w :
  ok_of (fetch_none net (sent w) (deleteRequest a)) = Some true ->
  ok_of (fetch_none net (sent w ++ [deleteRequest a]) (deleteRequest b))
  = Some true ->
  ok_of (fetch_none net' (sent w) (deleteRequest b)) = Some true ->
  ok_of (fetch_none net' (sent w ++ [deleteRequest b]) (deleteRequest a))
  = Some true ->
  todos (snd (handleDelete net b (snd (handleDelete net a w))))
  = todos (snd (handleDelete net' a (snd (handleDelete net' b w)))).
Proof.
  intros Ha Hab Hb Hba.
  rewrite (handleDelete_ok net a w Ha). simpl.
  rewrite (handleDelete_ok net' b w Hb). simpl.
  rewrite handleDelete_ok by done. rewrite handleDelete_ok by done. simpl.
  rewrite !list_filter_filter. apply list_filter_iff. tauto.
Qed.

Lemma remove_commute_witness :
  todos (snd (handleDelete (net_const milk) (IdNum 2)
                (snd (handleDelete (net_const milk) (IdNum 1)
                        (loaded [learn; milk; milk_dup])))))
  = todos (snd (handleDelete (net_const learn) (IdNum 1)
                  (snd (handleDelete (net_const learn) (IdNum 2)
                          (loaded [learn; milk; milk_dup]))))).
Proof.
  apply (remove_commute (net_const milk) (net_const learn) (IdNum 1) (IdNum 2)
           (loaded [learn; milk; milk_dup]));
    reflexivity.
Defined.

(** X9. On a collection with unique identifiers a successful add keeps
    them unique exactly when the server's record carries an identifier
    that no record of the collection has: the client appends whatever
    identifier comes back. *)
Theorem add_unique_ids net title created w :
  NoDup (todo_id <$> todos w) ->
  fetch_todo net (sent w) (createRequest title) = success created ->
  exists w',
    handleAdd net title w = (Resolved tt, w') /\
    (NoDup (todo_id <$> todos w') <-> todo_id created ∉ todo_id <$> todos w).
Proof.
  intros Hnd Hres. eexists. split; [by apply handleAdd_success|]. simpl.
  rewrite fmap_app, NoDup_app. simpl. split.
  - intros (_ & Hdisj & _) Hin. apply (Hdisj _ Hin), list_elem_of_here.
  - intros Hfresh. split; [done|]. split; [|apply NoDup_singleton].
    intros x Hx ->%list_elem_of_singleton. by apply Hfresh.
Qed.

Lemma add_unique_ids_witness :
  exists w',
    handleAdd (net_const milk_dup) (js "Buy milk") (loaded [learn])
    = (Resolved tt, w') /\
    (NoDup (todo_id <$> todos w') <-> IdNum 1 ∉ [IdNum 1]).
Proof.
  apply (add_unique_ids (net_const milk_dup) (js "Buy milk") milk_dup
           (loaded [learn])).
  - apply NoDup_singleton.
  - reflexivity.
Defined.

(** X10. A successful remove keeps unique identifiers unique, and the
    records left are in the order they had. *)
Theorem remove_keeps_unique net id w :
  NoDup (todo_id <$> todos w) ->
  ok_of (fetch_none net (sent w) (deleteRequest id)) = Some true ->
  exists w',
    handleDelete net id w = (Resolved tt, w') /\
    NoDup (todo_id <$> todos w') /\
    (todo_id <$> todos w') `sublist_of` (todo_id <$> todos w).
Proof.
  intros Hnd Hok. eexists. split; [by apply handleDelete_ok|]. simpl.
  assert ((todo_id <$> filter (fun t => todo_id t ≠ id) (todos w))
            `sublist_of` (todo_id <$> todos w)) as Hsub.
  { apply fmap_sublist, sublist_filter. }
  split; [|exact Hsub]. by apply (sublist_NoDup _ _ Hnd).
Qed.

Lemma remove_keeps_unique_witness :
  exists w',
    handleDelete (net_const milk) (IdNum 1) (loaded [learn; milk])
    = (Resolved tt, w') /\
    NoDup (todo_id <$> todos w') /\
    (todo_id <$> todos w') `sublist_of` [IdNum 1; IdNum 2].
Proof.
  apply (remove_keeps_unique (net_const milk) (IdNum 1) (loaded [learn; milk])).
  - apply NoDup_cons. split; [|apply NoDup_singleton].
    intros H%list_elem_of_singleton. discriminate H.
  - reflexivity.
Defined.

(** Replacing by a record that is already the one in place. *)
Lemma replace_same (t : Todo) (l : list Todo) :
  NoDup (todo_id <$> l) -> t ∈ l ->
  (fun x => if bool_decide (todo_id x = todo_id t) then t else x) <$> l = l.
Proof.
  intros Hnd Ht. rewrite <- (list_fmap_id l) at 2.
  apply list_fmap_ext. intros i x Hx. simpl.
  case_bool_decide as Hid; [|done].
  symmetry. apply (unique_id_record l t x Hnd Ht); [|done].
  by apply list_elem_of_lookup_2 in Hx.
Qed.

(** X11. Toggling there and back: on a collection with unique
    identifiers, when the first toggle of a record is answered with any
    record of the same identifier and the second with the record as it
    was, the collection is again what it was. *)
Theorem toggle_roundtrip net t u newValue w :
  NoDup (todo_id <$> todos w) ->
  t ∈ todos w ->
  todo_id u = todo_id t ->
  fetch_todo net (sent w)
    (updateRequest (todo_id t) [(js "completed", JBool newValue)])
  = success u ->
  fetch_todo net
    (sent w ++ [updateRequest (todo_id t) [(js "completed", JBool newValue)]])
    (updateRequest (todo_id t) [(js "completed", JBool (negb newValue))])
  = success t ->
  exists w1 w2,
    handleToggle net (todo_id t) newValue w = (Resolved tt, w1) /\
    handleToggle net (todo_id t) (negb newValue) w1 = (Resolved tt, w2) /\
    u ∈ todos w1 /\
    todos w2 = todos w.
Proof.
  intros Hnd Ht Hu H1 H2. do 2 eexists.
  split; [rewrite handleToggle_run; simpl; rewrite H1; reflexivity|].
  split; [rewrite handleToggle_run; simpl; rewrite H2; reflexivity|]. simpl.
  split.
  - apply list_elem_of_fmap. exists t. split; [|done].
    by rewrite bool_decide_eq_true_2.
  - rewrite <- list_fmap_compose. rewrite <- (replace_same t (todos w)) at 2
      by done.
    apply list_fmap_ext. intros i x _. simpl.
    destruct (decide (todo_id x = todo_id t)) as [Hx|Hx].
    + rewrite (bool_decide_eq_true_2 _ Hx).
      by rewrite (bool_decide_eq_true_2 _ Hu).
    + rewrite (bool_decide_eq_false_2 _ Hx).
      by rewrite (bool_decide_eq_false_2 _ Hx).
Qed.

Lemma toggle_roundtrip_witness :
  exists w1 w2,
    handleToggle net_toggling (IdNum 1) true (loaded [learn; milk])
    = (Resolved tt, w1) /\
    handleToggle net_toggling (IdNum 1) false w1 = (Resolved tt, w2) /\
    learn_done ∈ todos w1 /\
    todos w2 = [learn; milk].
Proof.
  apply (toggle_roundtrip net_toggling learn learn_done true
           (loaded [learn; milk])).
  - apply NoDup_cons. split; [|apply NoDup_singleton].
    intros H%list_elem_of_singleton. discriminate H.
  - apply list_elem_of_here.
  - reflexivity.
  - reflexivity.
  - reflexivity.
Defined.

(** X12. Every rejection of a mutation handler has one of three causes,
    and carries that cause's error unchanged: [fetch] itself was rejected;
    the status was a non-success one, and the error is the wrapper's fixed
    failure; or the status was a success one and the body did not decode,
    which only the handlers that read the body can meet.  A remove whose
    response has a success status never fails. *)
Theorem mutation_rejections net op w e :
  fst (perform net op w) = Rejected e <->
  match reply net op (sent w) with
  | Rejected e' => e = e'
  | Resolved res =>
      if ok res
      then reads_body op = true /\ json res = Rejected e
      else e = Error (failure_of op)
  end.
Proof.
  destruct op as [title|id newValue|id newTitle|id]; simpl; unfold erase.
  - rewrite handleAdd_run. unfold answer.
    destruct (fetch_todo _ _ _) as [[[] [body|e']]|e']; simpl;
      split; try (intros [_ H]); try intros H; try done;
      try split; try done; congruence.
  - rewrite handleToggle_run. unfold answer. simpl.
    destruct (fetch_todo _ _ _) as [[[] [body|e']]|e']; simpl;
      split; try (intros [_ H]); try intros H; try done;
      try split; try done; congruence.
  - rewrite handleEdit_run. unfold answer. simpl.
    destruct (fetch_todo _ _ _) as [[[] [body|e']]|e']; simpl;
      split; try (intros [_ H]); try intros H; try done;
      try split; try done; congruence.
  - rewrite handleDelete_run.
    destruct (fetch_none _ _ _) as [[[] [body|e']]|e']; simpl;
      split; try (intros [H _]); try intros H; try done; congruence.
Qed.

(** ** The transport wrappers *)

(** X13. Each wrapper sends exactly one request, its own, whatever comes
    back: a rejected [fetch], a non-success status, a body that does not
    decode.  Nothing is retried. *)
Theorem wrappers_send_once net history :
  snd (listTodos net history) = history ++ [listRequest] /\
  (forall title,
     snd (createTodo net title history) = history ++ [createRequest title]) /\
  (forall id patch,
     snd (updateTodo net id patch history)
     = history ++ [updateRequest id patch]) /\
  (forall id,
     snd (deleteTodo net id history) = history ++ [deleteRequest id]).
Proof.
  split; [by rewrite listTodos_run|].
  split; [intros; by rewrite createTodo_run|].
  split; [intros; by rewrite updateTodo_run|].
  intros; by rewrite deleteTodo_run.
Qed.

(** X14. When [fetch] itself is rejected, each wrapper is rejected with
    that very error, not with its fixed failure. *)
Theorem wrappers_pass_fetch_error net history e :
  (fetch_todos net history listRequest = Rejected e ->
   fst (listTodos net history) = Rejected e) /\
  (forall title,
     fetch_todo net history (createRequest title) = Rejected e ->
     fst (createTodo net title history) = Rejected e) /\
  (forall id patch,
     fetch_todo net history (updateRequest id patch) = Rejected e ->
     fst (updateTodo net id patch history) = Rejected e) /\
  (forall id,
     fetch_none net history (deleteRequest id) = Rejected e ->
     fst (deleteTodo net id history) = Rejected e).
Proof.
  split; [intros H; by rewrite listTodos_run, H|].
  split; [intros title H; by rewrite createTodo_run, H|].
  split; [intros id patch H; by rewrite updateTodo_run, H|].
  intros id H; by rewrite deleteTodo_run, H.
Qed.

Lemma wrappers_pass_fetch_error_witness :
  fst (listTodos net_offline []) = Rejected (TypeError (js "Failed to fetch")) /\
  fst (deleteTodo net_offline (IdNum 1) [])
  = Rejected (TypeError (js "Failed to fetch")).
Proof.
  split.
  - apply (proj1 (wrappers_pass_fetch_error net_offline []
                    (TypeError (js "Failed to fetch")))).
    reflexivity.
  - apply (proj2 (proj2 (proj2 (wrappers_pass_fetch_error net_offline []
                                  (TypeError (js "Failed to fetch")))))
             (IdNum 1)).
    reflexivity.
Defined.

(** ** The item component *)

(** X15. When the draft is not blank and differs from the record's
    title, saving runs the edit callback once, on the record's identifier
    and the trimmed draft.  When the callback resolves the item leaves
    edit mode and keeps the draft as typed, untrimmed; when it is
    rejected the save is rejected with the same error and the item stays
    in edit mode with its draft. *)
Theorem save_runs_edit {W} (todo : Todo) (onEdit : Id -> jsstring -> M W unit)
    (s : ItemState) (w : W) :
  draft s <> todo_title todo ->
  blank (draft s) = false ->
  (forall w', onEdit (todo_id todo) (trim (draft s)) w = (Resolved tt, w') ->
     save todo onEdit (s, w)
     = (Resolved tt, (mkItemState false (draft s), w'))) /\
  (forall e w', onEdit (todo_id todo) (trim (draft s)) w = (Rejected e, w') ->
     save todo onEdit (s, w) = (Rejected e, (s, w'))).
Proof.
  intros Hne Hb. rewrite (save_calls todo onEdit s w Hne Hb).
  split; intros; by rewrite H.
Qed.

Lemma save_runs_edit_witness :
  save learn (handleEdit (net_const milk_dup))
    (mkItemState true (js " Buy milk "), loaded [learn])
  = (Resolved tt,
     (mkItemState false (js " Buy milk "),
      with_todos [milk_dup]
        (sending (updateRequest (IdNum 1) [(js "title", JString (js "Buy milk"))])
           (loaded [learn])))) /\
  save learn (handleEdit net_refusing)
    (mkItemState true (js " Buy milk "), loaded [learn])
  = (Rejected (Error (js "Failed to update todo")),
     (mkItemState true (js " Buy milk "),
      sending (updateRequest (IdNum 1) [(js "title", JString (js "Buy milk"))])
        (loaded [learn]))).
Proof.
  split.
  - apply (proj1 (save_runs_edit learn (handleEdit (net_const milk_dup))
                    (mkItemState true (js " Buy milk ")) (loaded [learn])
                    ltac:(discriminate) eq_refl)).
    reflexivity.
  - apply (proj2 (save_runs_edit learn (handleEdit net_refusing)
                    (mkItemState true (js " Buy milk ")) (loaded [learn])
                    ltac:(discriminate) eq_refl)).
    reflexivity.
Defined.

(** X16. The guard of save compares the draft as typed, the callback
    gets it trimmed: a draft that is the record's title with white space
    around it passes the guard, and with the root component's edit
    handler as callback an update request carrying the unchanged title is
    sent. *)
Theorem save_padded_title net (todo : Todo) (s : ItemState) (w : World) :
  draft s <> todo_title todo ->
  trim (draft s) = todo_title todo ->
  todo_title todo <> [] ->
  sent (snd (snd (save todo (handleEdit net) (s, w))))
  = sent w
    ++ [updateRequest (todo_id todo)
          [(js "title", JString (todo_title todo))]].
Proof.
  intros Hne Htrim Hnonempty.
  assert (blank (draft s) = false) as Hb.
  { destruct (blank (draft s)) eqn:E; [|done].
    apply trim_blank in E. congruence. }
  rewrite (save_calls todo (handleEdit net) s w Hne Hb), Htrim.
  rewrite handleEdit_run. simpl. by destruct (answer _ _).
Qed.

Lemma save_padded_title_witness :
  sent (snd (snd (save learn (handleEdit (net_const learn))
                    (mkItemState true (js "Learn "), loaded [learn]))))
  = [listRequest;
     updateRequest (IdNum 1) [(js "title", JString (js "Learn"))]].
Proof.
  apply (save_padded_title (net_const learn) learn
           (mkItemState true (js "Learn ")) (loaded [learn]));
    [discriminate | reflexivity | discriminate].
Defined.

(** X17. Edit, type, cancel is a round trip of the item's state: it ends
    out of edit mode with the record's title as draft, whatever was typed
    and whatever the state was, the parent's state is not touched, and a
    save from there runs no callback. *)
Theorem edit_cancel_roundtrip {W} (todo : Todo)
    (onEdit : Id -> jsstring -> M W unit) (s : ItemState) (w : W)
    (v : jsstring) :
  (edit_onClick ;; draft_onChange v ;; cancel_onClick todo) (s, w)
  = (Resolved tt, (item_initial todo, w)) /\
  save todo onEdit (item_initial todo, w)
  = (Resolved tt, (item_initial todo, w)).
Proof.
  split; [reflexivity|].
  unfold save, bind, gets, setIsEditing, modify, item_initial. simpl.
  rewrite bool_decide_eq_false_2 by (intros H; by apply H).
  by rewrite andb_false_r.
Qed.

(** X18. The checkbox and the Delete button only forward: with the root
    component's handlers as callbacks, the checkbox sends an update that
    asks for the negation of the record's flag as passed down, the button
    a delete of the record's identifier, and neither changes the item's
    own state, whether the handler resolves or is rejected. *)
Theorem item_forwards net (todo : Todo) (s : ItemState) (w : World) :
  (fst (snd (checkbox_onChange todo (handleToggle net) (s, w))) = s /\
   sent (snd (snd (checkbox_onChange todo (handleToggle net) (s, w))))
   = sent w
     ++ [updateRequest (todo_id todo)
           [(js "completed", JBool (negb (todo_completed todo)))]]) /\
  (fst (snd (delete_onClick todo (handleDelete net) (s, w))) = s /\
   sent (snd (snd (delete_onClick todo (handleDelete net) (s, w))))
   = sent w ++ [deleteRequest (todo_id todo)]).
Proof.
  unfold checkbox_onChange, delete_onClick, parent, zoom. cbn [fst snd].
  rewrite handleToggle_run, handleDelete_run. simpl. split.
  - by destruct (answer _ _).
  - by destruct (fetch_none _ _ _) as [[[] ?]|].
Qed.

(** ** The input component *)

(** X19. A submit whose create request is answered with a non-success
    status is rejected with the create failure; the field keeps its text
    as typed and the collection is what it was. *)
Theorem submit_refused net (field : jsstring) (w : World) :
  blank field = false ->
  status net (Add (trim field)) (sent w) = Some false ->
  submit (handleAdd net) (field, w)
  = (Rejected (Error (js "Failed to create todo")),
     (field, sending (createRequest (trim field)) w)).
Proof.
  intros Hb Hst. rewrite submit_run, Hb, handleAdd_run.
  simpl in Hst. unfold ok_of, answer in *.
  destruct (fetch_todo _ _ _) as [[[] ?]|]; simpl in *; congruence.
Qed.

Lemma submit_refused_witness :
  submit (handleAdd net_refusing) (js " Buy milk ", loaded [learn])
  = (Rejected (Error (js "Failed to create todo")),
     (js " Buy milk ",
      sending (createRequest (js "Buy milk")) (loaded [learn]))).
Proof.
  apply (submit_refused net_refusing (js " Buy milk ") (loaded [learn]));
    reflexivity.
Defined.

(** ** What reaches the server *)

(** X20. Every title the two components hand to the root component's
    handlers reaches the server trimmed: the create request of a submit
    and the update request of a save carry a title that is not empty and
    has no white space at either end. *)
Theorem titles_sent_clean net (w : World) :
  (forall field,
     blank field = false ->
     clean (trim field) = true /\
     sent (snd (snd (submit (handleAdd net) (field, w))))
     = sent w ++ [createRequest (trim field)]) /\
  (forall todo s,
     draft s <> todo_title todo ->
     blank (draft s) = false ->
     clean (trim (draft s)) = true /\
     sent (snd (snd (save todo (handleEdit net) (s, w))))
     = sent w
       ++ [updateRequest (todo_id todo)
             [(js "title", JString (trim (draft s)))]]).
Proof.
  split.
  - intros field Hb. split; [by apply trim_clean|].
    rewrite submit_run, Hb, handleAdd_run. by destruct (answer _ _).
  - intros todo s Hne Hb. split; [by apply trim_clean|].
    rewrite (save_calls todo (handleEdit net) s w Hne Hb), handleEdit_run.
    simpl. by destruct (answer _ _).
Qed.

Lemma titles_sent_clean_witness :
  (clean (js "Buy milk") = true /\
   sent (snd (snd (submit (handleAdd net_offline)
                     (js "  Buy milk ", loaded [learn]))))
   = [listRequest; createRequest (js "Buy milk")]) /\
  (clean (js "Buy milk") = true /\
   sent (snd (snd (save learn (handleEdit net_offline)
                     (mkItemState true (js " Buy milk  "), loaded [learn]))))
   = [listRequest;
      updateRequest (IdNum 1) [(js "title", JString (js "Buy milk"))]]).
Proof.
  split.
  - apply (proj1 (titles_sent_clean net_offline (loaded [learn]))
             (js "  Buy milk ")).
    reflexivity.
  - apply (proj2 (titles_sent_clean net_offline (loaded [learn])) learn
             (mkItemState true (js " Buy milk  ")));
      [discriminate | reflexivity].
Defined.

(** ** What is rendered *)

(** X21. A rejected mutation changes nothing of what the root component
    renders: the collection shown is the same and no error paragraph
    appears for it. *)
Theorem failed_mutation_invisible net op w e :
  fst (perform net op w) = Rejected e ->
  App_render (snd (perform net op w)) = App_render w.
Proof.
  intros Hrej.
  rewrite (perform_rejected net op w e (snd (perform net op w))).
  - reflexivity.
  - rewrite <- Hrej. by destruct (perform net op w).
Qed.

Lemma failed_mutation_invisible_witness :
  App_render (snd (perform net_refusing (Remove (IdNum 1)) (loaded [learn])))
  = App_render (loaded [learn]).
Proof.
  apply (failed_mutation_invisible net_refusing (Remove (IdNum 1))
           (loaded [learn]) (Error (js "Failed to delete todo"))).
  reflexivity.
Defined.

(** X22. Once the load has run the loading paragraph is gone, whether
    the load succeeded or not: the form and the list are rendered.  After
    a failed first load the list gets the empty collection and renders
    its placeholder, beside the error paragraph with the message when the
    message is not empty. *)
Theorem view_after_load net :
  (forall w, exists l,
     content (App_render (snd (load net w))) = Ready l) /\
  (forall e,
     fst (listTodos net (sent initial)) = Rejected e ->
     App_render (snd (load net initial))
     = mkAppView
         (if truthy (message e) then Some (js "Error: " ++ message e)
          else None)
         (Ready []) /\
     TodoList_render (todos (snd (load net initial))) = NoTodos).
Proof.
  split.
  - intros w. rewrite load_run_any. destruct (answer _ _); by eexists.
  - intros e. rewrite listTodos_run, load_run_any. simpl. by intros ->.
Qed.

Lemma view_after_load_witness :
  App_render (snd (load net_refusing initial))
  = mkAppView (Some (js "Error: Failed to load todos")) (Ready []) /\
  TodoList_render (todos (snd (load net_refusing initial))) = NoTodos.
Proof.
  apply (proj2 (view_after_load net_refusing)
           (Error (js "Failed to load todos"))).
  reflexivity.
Defined.



(** X24. The draft is seeded once and does not follow the record.  As
    long as the record passed down carries the same identifier, so that
    the item is the same instance under the same key: after a save that
    resolved, the item shows that record's title as text; and pressing
    Edit again brings back the draft as it was typed, white space
    included, not the title of the record now shown. *)
Theorem stale_draft {W} (todo todo' : Todo)
    (onEdit : Id -> jsstring -> M W unit) (s : ItemState) (w w' : W) :
  todo_id todo' = todo_id todo ->
  draft s <> todo_title todo ->
  blank (draft s) = false ->
  onEdit (todo_id todo) (trim (draft s)) w = (Resolved tt, w') ->
  body (TodoItem_render todo' (fst (snd (save todo onEdit (s, w)))))
  = Reading (todo_title todo') (todo_completed todo') /\
  body (TodoItem_render todo'
          (fst (snd ((save todo onEdit ;; edit_onClick) (s, w)))))
  = Editing (draft s).
Proof.
  intros _ Hne Hb Hres. unfold bind.
  rewrite (save_calls todo onEdit s w Hne Hb), Hres. by split.
Qed.

Lemma stale_draft_witness :
  body (TodoItem_render milk_dup
          (fst (snd (save learn (handleEdit (net_const milk_dup))
                       (mkItemState true (js " Buy milk "), loaded [learn])))))
  = Reading (js "Buy milk") false /\
  body (TodoItem_render milk_dup
          (fst (snd ((save learn (handleEdit (net_const milk_dup)) ;;
                      edit_onClick)
                       (mkItemState true (js " Buy milk "), loaded [learn])))))
  = Editing (js " Buy milk ").
Proof.
  apply (stale_draft learn milk_dup (handleEdit (net_const milk_dup))
           (mkItemState true (js " Buy milk ")) (loaded [learn])
           (with_todos [milk_dup]
              (sending
                 (updateRequest (IdNum 1)
                    [(js "title", JString (js "Buy milk"))])
                 (loaded [learn]))));
    [reflexivity | discriminate | reflexivity | reflexivity].
Defined.
